(** * GridGenerator: the hexagonal tile grid of [main.py]

    A shallow embedding of the classes [HexTile] and [HexGrid] and the
    properties of grid generation, lookup, the toy tectonic simulation and
    the text and pixel views.

    Conventions of the embedding.
    - Python [int] is [Z]; Python [float] is idealised as a real number
      ([R]): rounding is not modelled, so a statement about a float value is
      a statement about the real number the expression denotes.
    - A [dict] keyed by the tuple [(q, r)] is a [gmap (Z * Z)].  Every tile
      object is referenced by exactly one entry of the grid, so assigning to
      an attribute of the tile is replacing the value stored at its key.
    - The module [random] is ambient state: the generator state is threaded
      through explicitly, and [uniform] and [choice] are parameters.
    - [pyproj.transform] between the two fixed projections is a parameter.
    - [print] appends to the text written to standard output. *)

From Stdlib Require Import ZArith Reals Lra Lia String Ascii.
From stdpp Require Import gmap strings list list_numbers fin_maps.

Local Open Scope Z_scope.
#[local] Set Warnings "-clear-no-such-hyp".

(** ** Python built-ins used by the program *)

Module Py.

(** [range(start, stop)] on integers: empty when [stop <= start]. *)
Definition range (start stop : Z) : list Z := seqZ start (stop - start).

(** [max(a, b)]: the first argument is kept unless the second is
    strictly greater. *)
Definition max (a b : R) : R := if Rlt_dec a b then b else a.

(** [s * n] on a string: [n] copies, none when [n <= 0]. *)
Fixpoint repeat_str (s : string) (n : nat) : string :=
  match n with
  | O => EmptyString
  | S n' => s +:+ repeat_str s n'
  end.

Definition str_mul (s : string) (n : Z) : string := repeat_str s (Z.to_nat n).

(** [print(s, end=e)] on the text written so far. *)
Definition print (s e : string) (out : string) : string := out +:+ s +:+ e.

Definition newline : string := String (ascii_of_nat 10) EmptyString.

End Py.

(** ** class HexTile *)

Module HexTile.

Record t : Type := mk {
  q : Z;
  r : Z;
  s : Z;
  elevation : R;
  temperature : R;
  natural_resources : string;
  agriculture : string
}.

(** [tile.elevation = e] *)
Definition set_elevation (e : R) (tile : t) : t :=
  mk (q tile) (r tile) (s tile) e (temperature tile)
     (natural_resources tile) (agriculture tile).

Section Init.
Context {Rng : Type}.
Variable uniform : R → R → Rng → R * Rng.
Variable choice : list string → Rng → string * Rng.

(** [HexTile.__init__]: the four draws happen in source order. *)
Definition init (q r : Z) (rng : Rng) : t * Rng :=
  let s := - q - r in
  let '(elevation, rng) := uniform 0%R 100%R rng in
  let '(temperature, rng) := uniform (-30)%R 50%R rng in
  let '(natural_resources, rng) :=
    choice ["None"; "Iron"; "Gold"; "Coal"; "Oil"]%string rng in
  let '(agriculture, rng) :=
    choice ["None"; "Low"; "Medium"; "High"]%string rng in
  (mk q r s elevation temperature natural_resources agriculture, rng).
End Init.

End HexTile.

(** ** The drawing handed to svgwrite *)

Module Svg.

(** [dwg.polygon(points=..., fill=..., stroke=...)] *)
Record polygon : Type := mk {
  points : list (R * R);
  fill : string;
  stroke : string
}.

(** The elements of a [Drawing], in the order of the calls of [dwg.add]. *)
Abbreviation drawing := (list polygon).

End Svg.

(** ** class HexGrid *)

Module HexGrid.

Abbreviation Grid := (gmap (Z * Z) HexTile.t).

Section Generate.
Context {Rng : Type}.
Variable uniform : R → R → Rng → R * Rng.
Variable choice : list string → Rng → string * Rng.

(** Body of the inner loop: [grid[(q, r)] = HexTile(q, r)]. *)
Definition generate_cell (q : Z) (st : Grid * Rng) (r : Z) : Grid * Rng :=
  let '(tile, rng) := HexTile.init uniform choice q r (snd st) in
  (<[(q, r) := tile]> (fst st), rng).

(** Body of the outer loop: the inner [for r in range(...)]. *)
Definition generate_column (radius : Z) (st : Grid * Rng) (q : Z) : Grid * Rng :=
  foldl (generate_cell q) st
        (Py.range (Z.max (- radius) (- q - radius))
                  (Z.min radius (- q + radius) + 1)).

(** [HexGrid.generate_grid] *)
Definition generate_grid (radius : Z) (rng : Rng) : Grid * Rng :=
  foldl (generate_column radius) (∅, rng)
        (Py.range (- radius) (radius + 1)).
End Generate.

(** The instance: [self.radius] and [self.grid]. *)
Record t : Type := mk { radius : Z; grid : Grid }.

(** [HexGrid.__init__] *)
Definition init {Rng : Type} (uniform : R → R → Rng → R * Rng)
    (choice : list string → Rng → string * Rng)
    (radius : Z) (rng : Rng) : t * Rng :=
  let '(grid, rng) := generate_grid uniform choice radius rng in
  (mk radius grid, rng).

(** [HexGrid.get_tile]: [dict.get] with its default [None]. *)
Definition get_tile (self : t) (q r : Z) : option HexTile.t :=
  grid self !! (q, r).

(** [HexGrid.hex_to_latlon] *)
Definition hex_to_latlon (q r : Z) : Z * Z :=
  let scale := 10 in
  let lon := q * scale in
  let lat := r * scale in
  (lon, lat).

Section Simulate.
(** [transform(proj_wgs84, proj_cartesian, lon, lat)] of pyproj. *)
Variable transform : R → R → R * R.

(** The value assigned to [tile.elevation] by one pass of the loop
    body, for the key [(q, r)]. *)
Definition simulated_elevation (q r : Z) : R :=
  let '(lon, lat) := hex_to_latlon q r in
  let '(x, y) := transform (IZR lon) (IZR lat) in
  let elevation := (1000 - sqrt (x ^ 2 + y ^ 2) / 10)%R in
  Py.max 0%R elevation.

(** Body of the loop over [self.grid.items()]. *)
Definition simulate_item (grid : Grid) (item : (Z * Z) * HexTile.t) : Grid :=
  let '((q, r), tile) := item in
  <[(q, r) := HexTile.set_elevation (simulated_elevation q r) tile]> grid.

(** [HexGrid.simulate_tectonics] *)
Definition simulate_tectonics (self : t) : t :=
  mk (radius self) (foldl simulate_item (grid self) (map_to_list (grid self))).
End Simulate.

(** Body of the inner loop of [visual_grid]. *)
Definition visual_cell (grid : Grid) (r : Z) (out : string) (q : Z) : string :=
  if bool_decide (is_Some (grid !! (q, r)))
  then Py.print "o " "" out
  else Py.print "  " "" out.

(** Body of the outer loop of [visual_grid]. *)
Definition visual_row (self : t) (out : string) (r : Z) : string :=
  let out := Py.print (Py.str_mul " " (radius self - r)) "" out in
  let out :=
    foldl (visual_cell (grid self) r) out
          (Py.range (Z.max (- radius self) (- r - radius self))
                    (Z.min (radius self) (- r + radius self) + 1)) in
  Py.print "" Py.newline out.

(** [HexGrid.visual_grid], as a transformer of the text printed so far. *)
Definition visual_grid (self : t) (out : string) : string :=
  foldl (visual_row self) out (Py.range (- radius self) (radius self + 1)).

(** [HexGrid.hex_to_pixel] *)
Definition hex_to_pixel (q r : Z) (size : R) : R * R :=
  let x := (size * (3 / 2 * IZR q))%R in
  let y := (size * (sqrt 3 * (IZR r + IZR q / 2)))%R in
  (x, y).

(** [HexGrid.get_color_by_elevation] *)
Definition get_color_by_elevation (elevation : R) : string :=
  if Rgt_dec elevation 800 then "#8B0000"
  else if Rgt_dec elevation 400 then "#FFA500"
  else "#00FF00".

(** Body of the loop of [calculate_hex_points]. *)
Definition hex_point (x y size : R) (points : list (R * R)) (i : Z) : list (R * R) :=
  let angle := (2 * PI / 6 * IZR i)%R in
  let px := (x + size * cos angle)%R in
  let py := (y + size * sin angle)%R in
  points ++ [(px, py)].

(** [HexGrid.calculate_hex_points] *)
Definition calculate_hex_points (x y size : R) : list (R * R) :=
  foldl (hex_point x y size) [] (Py.range 0 6).

(** Body of the loop of [export_to_svg]: one call of [dwg.add]. *)
Definition export_item (hex_size : R) (dwg : Svg.drawing)
    (item : (Z * Z) * HexTile.t) : Svg.drawing :=
  let '((q, r), tile) := item in
  let '(x, y) := hex_to_pixel q r hex_size in
  let hex_points := calculate_hex_points x y hex_size in
  let color := get_color_by_elevation (HexTile.elevation tile) in
  dwg ++ [Svg.mk hex_points color "black"].

(** [HexGrid.export_to_svg]: the drawing that [dwg.save()] writes.  The
    elements follow the iteration order of the dict, which the finite map
    does not record: only statements that do not depend on the order of
    the elements are made about it. *)
Definition export_to_svg (self : t) : Svg.drawing :=
  let hex_size := 20%R in
  foldl (export_item hex_size) [] (map_to_list (grid self)).

End HexGrid.

(** ** The vocabulary of the specification *)

(** The hexagonal region of a given radius: [max(|q|, |r|, |s|) <= R] with
    [s = -q-r]. *)
Definition in_hexagon (radius q r : Z) : Prop :=
  Z.max (Z.abs q) (Z.max (Z.abs r) (Z.abs (- q - r))) ≤ radius.

(** The number of cells of that region. *)
Definition tile_count (radius : Z) : Z := 3 * radius * radius + 3 * radius + 1.

(** The keys in the order in which [generate_grid] assigns them. *)
Definition generated_keys (radius : Z) : list (Z * Z) :=
  q ← Py.range (- radius) (radius + 1);
  (λ r, (q, r)) <$> Py.range (Z.max (- radius) (- q - radius))
                             (Z.min radius (- q + radius) + 1).

Definition sumZ (l : list Z) : Z := foldr Z.add 0 l.

(** Every tile stored in the grid carries the coordinates of its key. *)
Definition well_keyed (grid : HexGrid.Grid) : Prop :=
  ∀ q r tile, grid !! (q, r) = Some tile →
    HexTile.q tile = q ∧ HexTile.r tile = r ∧ HexTile.s tile = - q - r.

(** The text of the visual view, row by row.  [per_row] is the number of
    space characters of indentation per unit of [radius - r]. *)
Definition concat_str (l : list string) : string := foldr String.append "" l.

Definition indentation (width : nat) : string :=
  string_of_list_ascii (replicate width " "%char).

Definition marker (grid : HexGrid.Grid) (q r : Z) : string :=
  if bool_decide (is_Some (grid !! (q, r))) then "o " else "  ".

Definition visual_row_text (per_row : Z) (self : HexGrid.t) (r : Z) : string :=
  let radius := HexGrid.radius self in
  indentation (Z.to_nat (per_row * (radius - r)))
  +:+ concat_str ((λ q, marker (HexGrid.grid self) q r)
                    <$> Py.range (Z.max (- radius) (- r - radius))
                                 (Z.min radius (- r + radius) + 1))
  +:+ Py.newline.

Definition visual_grid_text (per_row : Z) (self : HexGrid.t) : string :=
  let radius := HexGrid.radius self in
  concat_str (visual_row_text per_row self <$> Py.range (- radius) (radius + 1)).

(** The distance from the planar origin of the projection of the
    synthetic position [(lon, lat) = (10 q, 10 r)]. *)
Definition planar_distance (transform : R → R → R * R) (q r : Z) : R :=
  let '(x, y) := transform (10 * IZR q)%R (10 * IZR r)%R in
  sqrt (x * x + y * y).

(** The six corners of a flat-top hexagon of circumradius [size] around
    [(x, y)], counter-clockwise from the corner on the right. *)
Definition flat_top_corners (x y size : R) : list (R * R) :=
  [ (x + size, y);
    (x + size / 2, y + size * sqrt 3 / 2);
    (x - size / 2, y + size * sqrt 3 / 2);
    (x - size, y);
    (x - size / 2, y - size * sqrt 3 / 2);
    (x + size / 2, y - size * sqrt 3 / 2) ]%R.

(** The square of the distance between two points of the plane. *)
Definition dist2 (p1 p2 : R * R) : R :=
  ((fst p1 - fst p2) * (fst p1 - fst p2) + (snd p1 - snd p2) * (snd p1 - snd p2))%R.

(** The six neighbours of an axial coordinate. *)
Definition axial_directions : list (Z * Z) :=
  [(1, 0); (1, -1); (0, -1); (-1, 0); (-1, 1); (0, 1)].

(** The polygon drawn for one tile: the flat-top hexagon around the pixel
    centre of its key, filled with the colour of its elevation. *)
Definition tile_polygon (hex_size : R) (item : (Z * Z) * HexTile.t) : Svg.polygon :=
  let '(x, y) := HexGrid.hex_to_pixel (fst (fst item)) (snd (fst item)) hex_size in
  Svg.mk (flat_top_corners x y hex_size)
         (HexGrid.get_color_by_elevation (HexTile.elevation (snd item)))
         "black".

(** A full row of the visual view: every cell is a tile. *)
Definition full_row_text (radius r : Z) : string :=
  indentation (Z.to_nat (radius - r))
  +:+ Py.repeat_str "o " (Z.to_nat (2 * radius + 1 - Z.abs r))
  +:+ Py.newline.

(** ** Concrete collaborators for the examples: a source of random values
    that always answers the lower bound and the first choice, and a planar
    projection of one unit per degree. *)
Definition uniform0 (a b : R) (rng : unit) : R * unit := (a, rng).
Definition choice0 (l : list string) (rng : unit) : string * unit :=
  (default ""%string (head l), rng).
Definition transform0 (lon lat : R) : R * R := (lon, lat).

(** A source of random values that counts the values it has handed out. *)
Definition uniform_count (a b : R) (rng : nat) : R * nat := (a, S rng).
Definition choice_count (l : list string) (rng : nat) : string * nat :=
  (default ""%string (head l), S rng).

(** The tile and the grids of radius 0 and 1 built with them. *)
Definition tile00 : HexTile.t := fst (HexTile.init uniform0 choice0 0 0 tt).
Definition grid0 : HexGrid.t := fst (HexGrid.init uniform0 choice0 0 tt).
Definition grid1 : HexGrid.t := fst (HexGrid.init uniform0 choice0 1 tt).

(** The tile of [grid0] after the simulation with [transform0]. *)
Definition tile00_simulated : HexTile.t :=
  HexTile.set_elevation (HexGrid.simulated_elevation transform0 0 0) tile00.

(** ** Loops over [range] and nested loops *)

Lemma foldl_bind {A B C} (f : A → C → A) (g : B → list C) (l : list B) (a : A) :
  foldl f a (l ≫= g) = foldl (λ a x, foldl f a (g x)) a l.
Proof.
  revert a. induction l as [|x l IH]; intros a; [done|].
  rewrite bind_cons, foldl_app. apply IH.
Qed.

Lemma length_bind_sumZ {A B} (g : A → list B) (l : list A) :
  Z.of_nat (length (l ≫= g)) = sumZ ((λ x, Z.of_nat (length (g x))) <$> l).
Proof.
  induction l as [|x l IH]; [done|].
  rewrite bind_cons, length_app, Nat2Z.inj_add, IH. done.
Qed.

Lemma sumZ_cons (x : Z) (l : list Z) : sumZ (x :: l) = x + sumZ l.
Proof. done. Qed.

Lemma sumZ_app (l k : list Z) : sumZ (l ++ k) = sumZ l + sumZ k.
Proof.
  induction l as [|x l IH]; [done|].
  rewrite <- app_comm_cons, !sumZ_cons, IH. lia.
Qed.

Lemma sumZ_ext {A} (f g : A → Z) (l : list A) :
  (∀ x, x ∈ l → f x = g x) → sumZ (f <$> l) = sumZ (g <$> l).
Proof.
  induction l as [|x l IH]; intros Hfg; [done|].
  rewrite !fmap_cons, !sumZ_cons, (Hfg x) by left. rewrite IH; [done|].
  intros y Hy. apply Hfg. by right.
Qed.

(** Twice the sum of an arithmetic progression [c + d * k] for [k] in
    [start, start + n). *)
Lemma sumZ_affine (c d start : Z) (n : nat) :
  2 * sumZ ((λ k, c + d * k) <$> seqZ start (Z.of_nat n))
  = 2 * Z.of_nat n * c + d * (2 * Z.of_nat n * start + Z.of_nat n * (Z.of_nat n - 1)).
Proof.
  induction n as [|n IH].
  - rewrite seqZ_nil by lia. simpl. lia.
  - rewrite seqZ_S, fmap_app, sumZ_app. cbn [fmap list_fmap].
    rewrite sumZ_cons. cbn [sumZ foldr]. nia.
Qed.

(** ** Grid generation *)

Lemma range_nil (start stop : Z) : stop ≤ start → Py.range start stop = [].
Proof. intros. unfold Py.range. apply seqZ_nil. lia. Qed.

Lemma elem_of_range (start stop k : Z) :
  k ∈ Py.range start stop ↔ start ≤ k < stop.
Proof. unfold Py.range. rewrite elem_of_seqZ. lia. Qed.

Lemma length_range (start stop : Z) :
  Z.of_nat (length (Py.range start stop)) = Z.max 0 (stop - start).
Proof. unfold Py.range. rewrite length_seqZ. lia. Qed.

Lemma elem_of_generated_keys (radius q r : Z) :
  (q, r) ∈ generated_keys radius ↔ in_hexagon radius q r.
Proof.
  unfold generated_keys, in_hexagon. rewrite list_elem_of_bind. split.
  - intros (q' & Hr & Hq). apply list_elem_of_fmap in Hr as (r' & [= -> ->] & Hr).
    apply elem_of_range in Hq, Hr. lia.
  - intros H. exists q. split.
    + apply list_elem_of_fmap. exists r. split; [done|]. apply elem_of_range. lia.
    + apply elem_of_range. lia.
Qed.

Lemma NoDup_generated_keys (radius : Z) : NoDup (generated_keys radius).
Proof.
  unfold generated_keys. apply NoDup_bind.
  - intros q1 q2 [q r] _ _ H1 H2.
    apply list_elem_of_fmap in H1 as (? & [= -> _] & _).
    apply list_elem_of_fmap in H2 as (? & [= -> _] & _). done.
  - intros q _. apply NoDup_fmap_2; [|apply NoDup_seqZ].
    intros r1 r2 [= ->]. done.
  - apply NoDup_seqZ.
Qed.

Lemma generated_keys_negative (radius : Z) : radius < 0 → generated_keys radius = [].
Proof. intros H. unfold generated_keys. rewrite range_nil by lia. done. Qed.

Lemma length_generated_keys (radius : Z) :
  0 ≤ radius → Z.of_nat (length (generated_keys radius)) = tile_count radius.
Proof.
  intros Hr. unfold generated_keys, tile_count.
  rewrite length_bind_sumZ.
  rewrite (sumZ_ext _ (λ q, (2 * radius + 1) - Z.abs q)).
  2:{ intros q Hq. apply elem_of_range in Hq.
      rewrite length_fmap, length_range. lia. }
  unfold Py.range.
  replace (radius + 1 - - radius) with (radius + (radius + 1)) by lia.
  rewrite seqZ_app, fmap_app, sumZ_app by lia.
  rewrite (sumZ_ext _ (λ q, (2 * radius + 1) + 1 * q) (seqZ (- radius) radius)).
  2:{ intros q Hq. apply elem_of_seqZ in Hq. lia. }
  rewrite (sumZ_ext _ (λ q, (2 * radius + 1) + (-1) * q) (seqZ (- radius + radius) _)).
  2:{ intros q Hq. apply elem_of_seqZ in Hq. lia. }
  pose proof (sumZ_affine (2 * radius + 1) 1 (- radius) (Z.to_nat radius)) as H1.
  pose proof (sumZ_affine (2 * radius + 1) (-1) (- radius + radius)
                (Z.to_nat (radius + 1))) as H2.
  rewrite !Z2Nat.id in H1, H2 by lia. nia.
Qed.

Section GenerateFacts.
Context {Rng : Type}.
Variable uniform : R → R → Rng → R * Rng.
Variable choice : list string → Rng → string * Rng.

Local Abbreviation cell := (λ st k, HexGrid.generate_cell uniform choice (fst k) st (snd k)).

Lemma init_coordinates (q r : Z) (rng : Rng) :
  let tile := fst (HexTile.init uniform choice q r rng) in
  HexTile.q tile = q ∧ HexTile.r tile = r ∧ HexTile.s tile = - q - r.
Proof.
  unfold HexTile.init.
  destruct (uniform _ _ rng) as [e rng1], (uniform _ _ rng1) as [t rng2].
  destruct (choice _ rng2) as [n rng3], (choice _ rng3) as [a rng4]. done.
Qed.

Lemma generate_cell_grid (q r : Z) (st : HexGrid.Grid * Rng) :
  fst (HexGrid.generate_cell uniform choice q st r)
  = <[(q, r) := fst (HexTile.init uniform choice q r (snd st))]> (fst st).
Proof.
  unfold HexGrid.generate_cell.
  by destruct (HexTile.init uniform choice q r (snd st)).
Qed.

(** The two nested loops are one pass over [generated_keys]. *)
Lemma generate_grid_keys (radius : Z) (rng : Rng) :
  HexGrid.generate_grid uniform choice radius rng
  = foldl cell (∅, rng) (generated_keys radius).
Proof.
  unfold HexGrid.generate_grid, generated_keys. rewrite foldl_bind.
  generalize (∅ : HexGrid.Grid, rng).
  induction (Py.range (- radius) (radius + 1)) as [|q l IH]; intros st; [done|].
  simpl. rewrite <- IH. f_equal.
  unfold HexGrid.generate_column. by rewrite foldl_fmap.
Qed.

Lemma dom_foldl_cell (keys : list (Z * Z)) (st : HexGrid.Grid * Rng) :
  dom (fst (foldl cell st keys)) = list_to_set keys ∪ dom (fst st).
Proof.
  revert st. induction keys as [|[q r] keys IH]; intros st; simpl.
  - set_solver.
  - rewrite IH, generate_cell_grid, dom_insert_L. set_solver.
Qed.

Lemma well_keyed_foldl_cell (keys : list (Z * Z)) (st : HexGrid.Grid * Rng) :
  well_keyed (fst st) → well_keyed (fst (foldl cell st keys)).
Proof.
  revert st. induction keys as [|[q r] keys IH]; intros st Hst; simpl; [done|].
  apply IH. rewrite generate_cell_grid. intros q' r' tile.
  destruct (decide ((q, r) = (q', r'))) as [[= <- <-]|Hne].
  - rewrite lookup_insert_eq. intros [= <-]. apply init_coordinates.
  - rewrite lookup_insert_ne by done. apply Hst.
Qed.

Lemma dom_generate_grid (radius : Z) (rng : Rng) :
  dom (fst (HexGrid.generate_grid uniform choice radius rng))
  = list_to_set (generated_keys radius).
Proof. rewrite generate_grid_keys, dom_foldl_cell. simpl. set_solver. Qed.

Lemma lookup_generate_grid (radius : Z) (rng : Rng) (q r : Z) :
  is_Some (fst (HexGrid.generate_grid uniform choice radius rng) !! (q, r))
  ↔ in_hexagon radius q r.
Proof.
  rewrite <- elem_of_dom, dom_generate_grid, elem_of_list_to_set.
  apply elem_of_generated_keys.
Qed.

Lemma well_keyed_generate_grid (radius : Z) (rng : Rng) :
  well_keyed (fst (HexGrid.generate_grid uniform choice radius rng)).
Proof.
  rewrite generate_grid_keys. apply well_keyed_foldl_cell.
  intros q r tile. simpl. by rewrite lookup_empty.
Qed.

Lemma size_generate_grid (radius : Z) (rng : Rng) :
  size (fst (HexGrid.generate_grid uniform choice radius rng))
  = length (generated_keys radius).
Proof.
  rewrite <- size_dom, dom_generate_grid.
  apply size_list_to_set, NoDup_generated_keys.
Qed.

(** C1. For every radius [R >= 0] the grid built by [generate_grid] has
    exactly [3R^2 + 3R + 1] tiles; a key is present exactly when it lies
    in the hexagonal region [max(|q|, |r|, |-q-r|) <= R]; the loop
    assigns no key twice; and every stored tile has the coordinates of
    its key with [s = -q-r], hence [q + r + s = 0]. *)
Theorem generate_grid_hexagon (radius : Z) (rng : Rng) :
  0 ≤ radius →
  let grid := fst (HexGrid.generate_grid uniform choice radius rng) in
  Z.of_nat (size grid) = tile_count radius
  ∧ (∀ q r, is_Some (grid !! (q, r)) ↔ in_hexagon radius q r)
  ∧ NoDup (generated_keys radius)
  ∧ dom grid = list_to_set (generated_keys radius)
  ∧ (∀ q r tile, grid !! (q, r) = Some tile →
       HexTile.q tile = q ∧ HexTile.r tile = r ∧ HexTile.s tile = - q - r
       ∧ HexTile.q tile + HexTile.r tile + HexTile.s tile = 0).
Proof.
  intros Hr grid. subst grid. split_and!.
  - rewrite size_generate_grid. by apply length_generated_keys.
  - apply lookup_generate_grid.
  - apply NoDup_generated_keys.
  - apply dom_generate_grid.
  - intros q r tile Ht.
    destruct (well_keyed_generate_grid radius rng q r tile Ht) as (Hq & Hr' & Hs).
    split_and!; [done..|lia].
Qed.

End GenerateFacts.

(** ** Lookup *)

Section LookupFacts.
Context {Rng : Type}.
Variable uniform : R → R → Rng → R * Rng.
Variable choice : list string → Rng → string * Rng.

Lemma grid_init (radius : Z) (rng : Rng) :
  HexGrid.grid (fst (HexGrid.init uniform choice radius rng))
  = fst (HexGrid.generate_grid uniform choice radius rng).
Proof.
  unfold HexGrid.init.
  by destruct (HexGrid.generate_grid uniform choice radius rng).
Qed.

Lemma radius_init (radius : Z) (rng : Rng) :
  HexGrid.radius (fst (HexGrid.init uniform choice radius rng)) = radius.
Proof.
  unfold HexGrid.init.
  by destruct (HexGrid.generate_grid uniform choice radius rng).
Qed.

(** C4. [get_tile] is a total function into an optional tile: it returns
    the tile stored at the key when there is one and [None] when there is
    none; on a generated grid every coordinate outside the hexagonal
    region gives [None], and every coordinate inside gives its tile. *)
Theorem get_tile_total (self : HexGrid.t) (radius : Z) (rng : Rng) (q r : Z) :
  (∀ tile, HexGrid.grid self !! (q, r) = Some tile →
     HexGrid.get_tile self q r = Some tile)
  ∧ (HexGrid.grid self !! (q, r) = None → HexGrid.get_tile self q r = None)
  ∧ (¬ in_hexagon radius q r →
     HexGrid.get_tile (fst (HexGrid.init uniform choice radius rng)) q r = None)
  ∧ (in_hexagon radius q r →
     is_Some (HexGrid.get_tile (fst (HexGrid.init uniform choice radius rng)) q r)).
Proof.
  unfold HexGrid.get_tile. rewrite grid_init. split_and!; [done..| |].
  - intros Hout. apply eq_None_not_Some. by rewrite lookup_generate_grid.
  - intros Hin. by apply lookup_generate_grid.
Qed.

(** C10. For a negative radius [generate_grid] builds the empty grid
    without drawing any random value, so the grid has no tile and
    [get_tile] answers [None] at every coordinate. *)
Theorem generate_grid_negative (radius : Z) (rng : Rng) :
  radius < 0 →
  HexGrid.generate_grid uniform choice radius rng = (∅, rng)
  ∧ size (fst (HexGrid.generate_grid uniform choice radius rng)) = 0%nat
  ∧ ∀ q r,
      HexGrid.get_tile (fst (HexGrid.init uniform choice radius rng)) q r = None.
Proof.
  intros Hneg.
  assert (HexGrid.generate_grid uniform choice radius rng = (∅, rng)) as Hgen.
  { unfold HexGrid.generate_grid. by rewrite range_nil by lia. }
  split_and!; [done| |].
  - rewrite Hgen. apply map_size_empty.
  - intros q r. unfold HexGrid.get_tile.
    rewrite grid_init, Hgen. apply lookup_empty.
Qed.

End LookupFacts.

(** ** The tectonic simulation *)

Lemma py_max_Rmax (a b : R) : Py.max a b = Rmax a b.
Proof.
  unfold Py.max, Rmax.
  destruct (Rlt_dec a b), (Rle_dec a b); lra.
Qed.

Lemma set_elevation_idem (e1 e2 : R) (tile : HexTile.t) :
  HexTile.set_elevation e2 (HexTile.set_elevation e1 tile)
  = HexTile.set_elevation e2 tile.
Proof. done. Qed.

Section SimulateFacts.
Variable transform : R → R → R * R.

Local Abbreviation new_tile := (λ (k : Z * Z) (tile : HexTile.t),
  HexTile.set_elevation (HexGrid.simulated_elevation transform (fst k) (snd k)) tile).

(** One pass over a list of items with pairwise distinct keys. *)
Lemma lookup_foldl_simulate_item (items : list ((Z * Z) * HexTile.t))
    (grid : HexGrid.Grid) (k : Z * Z) :
  NoDup items.*1 →
  foldl (HexGrid.simulate_item transform) grid items !! k
  = match (list_to_map items : HexGrid.Grid) !! k with
    | Some tile => Some (new_tile k tile)
    | None => grid !! k
    end.
Proof.
  revert grid. induction items as [|[[q r] tile] items IH]; intros grid Hnd.
  - simpl. by rewrite lookup_empty.
  - apply NoDup_cons in Hnd as [Hnotin Hnd].
    cbn [foldl]. rewrite IH by done. cbn [list_to_map foldr uncurry].
    unfold HexGrid.simulate_item.
    destruct (decide ((q, r) = k)) as [<-|Hne].
    + rewrite (not_elem_of_list_to_map_1 items (q, r)) by done.
      by rewrite !lookup_insert_eq.
    + by rewrite !lookup_insert_ne by done.
Qed.

(** The simulation acts on every stored tile, key by key. *)
Lemma lookup_simulate_tectonics (self : HexGrid.t) (k : Z * Z) :
  HexGrid.grid (HexGrid.simulate_tectonics transform self) !! k
  = new_tile k <$> HexGrid.grid self !! k.
Proof.
  unfold HexGrid.simulate_tectonics. cbn [HexGrid.grid].
  rewrite lookup_foldl_simulate_item by apply NoDup_fst_map_to_list.
  rewrite list_to_map_to_list.
  by destruct (HexGrid.grid self !! k).
Qed.

Lemma simulated_elevation_formula (q r : Z) :
  HexGrid.simulated_elevation transform q r
  = let '(x, y) := transform (10 * IZR q) (10 * IZR r) in
    Rmax 0 (1000 - sqrt (x * x + y * y) / 10).
Proof.
  unfold HexGrid.simulated_elevation, HexGrid.hex_to_latlon.
  rewrite !mult_IZR, !(Rmult_comm _ (IZR 10)).
  destruct (transform _ _) as [x y].
  rewrite py_max_Rmax.
  by replace (x ^ 2 + y ^ 2)%R with (x * x + y * y)%R by ring.
Qed.

(** C2. After [simulate_tectonics] the tile stored at any key [(q, r)]
    has elevation [max(0, 1000 - d/10)], where [d] is the Euclidean norm
    of the planar point obtained by projecting [(lon, lat) = (10q, 10r)];
    in particular the elevation is not negative.  The key is the tile's own
    coordinate pair whenever the grid stores each tile under its
    coordinates, as every generated grid does. *)
Theorem simulate_elevation (self : HexGrid.t) (q r : Z) (tile : HexTile.t) :
  HexGrid.grid (HexGrid.simulate_tectonics transform self) !! (q, r) = Some tile →
  let '(x, y) := transform (10 * IZR q) (10 * IZR r) in
  let d := sqrt (x * x + y * y) in
  HexTile.elevation tile = Rmax 0 (1000 - d / 10)
  ∧ (0 <= HexTile.elevation tile)%R
  ∧ (well_keyed (HexGrid.grid self) → HexTile.q tile = q ∧ HexTile.r tile = r).
Proof.
  rewrite lookup_simulate_tectonics. intros Hk.
  apply fmap_Some in Hk as (old & Hold & ->).
  cbn [HexTile.set_elevation HexTile.elevation HexTile.q HexTile.r fst snd].
  rewrite simulated_elevation_formula.
  destruct (transform _ _) as [x y]. split_and!; [done|apply Rmax_l|].
  intros Hwk. destruct (Hwk q r old Hold) as (Hq & Hr & _). done.
Qed.

(** C8. [simulate_tectonics] keeps the radius and the set of keys, and
    at every key the new tile differs from the old one at most in its
    elevation: [q], [r], [s], temperature, natural resources and
    agriculture are the old ones. *)
Theorem simulate_frame (self : HexGrid.t) :
  HexGrid.radius (HexGrid.simulate_tectonics transform self) = HexGrid.radius self
  ∧ dom (HexGrid.grid (HexGrid.simulate_tectonics transform self))
    = dom (HexGrid.grid self)
  ∧ ∀ k old, HexGrid.grid self !! k = Some old →
      ∃ new, HexGrid.grid (HexGrid.simulate_tectonics transform self) !! k = Some new
        ∧ HexTile.q new = HexTile.q old
        ∧ HexTile.r new = HexTile.r old
        ∧ HexTile.s new = HexTile.s old
        ∧ HexTile.temperature new = HexTile.temperature old
        ∧ HexTile.natural_resources new = HexTile.natural_resources old
        ∧ HexTile.agriculture new = HexTile.agriculture old.
Proof.
  split_and!.
  - done.
  - apply set_eq. intros k. rewrite !elem_of_dom, lookup_simulate_tectonics.
    apply fmap_is_Some.
  - intros k old Hold. eexists. rewrite lookup_simulate_tectonics, Hold.
    split; [reflexivity|]. done.
Qed.

(** C9. Running [simulate_tectonics] twice gives the same grid as
    running it once: the elevation written depends on the key only. *)
Theorem simulate_idempotent (self : HexGrid.t) :
  HexGrid.simulate_tectonics transform (HexGrid.simulate_tectonics transform self)
  = HexGrid.simulate_tectonics transform self.
Proof.
  assert (∀ a b : HexGrid.t,
    HexGrid.radius a = HexGrid.radius b → HexGrid.grid a = HexGrid.grid b → a = b)
    as Hext by (intros [] [] ; simpl; congruence).
  apply Hext; [done|]. apply map_eq. intros k.
  rewrite !lookup_simulate_tectonics.
  destruct (HexGrid.grid self !! k) as [tile|]; [|done].
  cbn [fmap option_fmap option_map]. by rewrite set_elevation_idem.
Qed.

End SimulateFacts.

Section OriginFacts.
Context {Rng : Type}.
Variable uniform : R → R → Rng → R * Rng.
Variable choice : list string → Rng → string * Rng.
Variable transform : R → R → R * R.

Lemma simulated_elevation_origin :
  transform 0%R 0%R = (0%R, 0%R) →
  HexGrid.simulated_elevation transform 0 0 = 1000%R.
Proof.
  intros H0.
  cbv beta iota zeta delta [HexGrid.simulated_elevation HexGrid.hex_to_latlon Z.mul].
  rewrite H0.
  replace (0 ^ 2 + 0 ^ 2)%R with 0%R by ring. rewrite sqrt_0.
  unfold Py.max. destruct (Rlt_dec _ _); lra.
Qed.

(** C3. When the projection sends [(0, 0)] to the planar origin, the
    tile at [(0, 0)] of a generated grid has elevation exactly [1000]
    after the simulation. *)
Theorem simulate_origin (radius : Z) (rng : Rng) :
  0 ≤ radius →
  transform 0%R 0%R = (0%R, 0%R) →
  ∃ tile,
    HexGrid.get_tile
      (HexGrid.simulate_tectonics transform
         (fst (HexGrid.init uniform choice radius rng))) 0 0 = Some tile
    ∧ HexTile.elevation tile = 1000%R.
Proof.
  intros Hr H0. unfold HexGrid.get_tile.
  rewrite lookup_simulate_tectonics, grid_init.
  destruct (proj2 (lookup_generate_grid uniform choice radius rng 0 0))
    as [old Hold].
  { unfold in_hexagon. lia. }
  rewrite Hold. eexists. split; [reflexivity|].
  cbn [HexTile.set_elevation HexTile.elevation fst snd].
  by apply simulated_elevation_origin.
Qed.

End OriginFacts.

(** ** Rendering *)

(** C5. The colour of an elevation: above 800 dark red, otherwise above
    400 orange, otherwise green, both comparisons strict; so 900 is dark
    red, 800 and 500 are orange, 400 and 100 are green. *)
Theorem color_thresholds (e : R) :
  ((e > 800)%R → HexGrid.get_color_by_elevation e = "#8B0000")
  ∧ (¬ (e > 800)%R → (e > 400)%R → HexGrid.get_color_by_elevation e = "#FFA500")
  ∧ (¬ (e > 800)%R → ¬ (e > 400)%R → HexGrid.get_color_by_elevation e = "#00FF00")
  ∧ HexGrid.get_color_by_elevation 900 = "#8B0000"
  ∧ HexGrid.get_color_by_elevation 800 = "#FFA500"
  ∧ HexGrid.get_color_by_elevation 500 = "#FFA500"
  ∧ HexGrid.get_color_by_elevation 400 = "#00FF00"
  ∧ HexGrid.get_color_by_elevation 100 = "#00FF00".
Proof.
  unfold HexGrid.get_color_by_elevation.
  split_and!; try intros; repeat destruct (Rgt_dec _ _); try done; lra.
Qed.

Lemma sqrt3_pos : (0 < sqrt 3)%R.
Proof. apply sqrt_lt_R0. lra. Qed.

(** C6, as amended. The centre of a hexagon is given by the flat-top
    formula [x = size * 1.5 * q], [y = size * sqrt 3 * (r + q/2)]; for
    [q = 1], [r = 0], [size = 20] this is [x = 30], [y = 10 * sqrt 3]. *)
Theorem hex_to_pixel_formula (q r : Z) (size : R) :
  HexGrid.hex_to_pixel q r size
  = (size * 1.5 * IZR q, size * sqrt 3 * (IZR r + IZR q / 2))%R
  ∧ HexGrid.hex_to_pixel 1 0 20 = (30, 10 * sqrt 3)%R.
Proof.
  unfold HexGrid.hex_to_pixel. split; f_equal; lra.
Qed.

(** C6, the instance as the specification gives it: [y] is not
    [20 * sqrt 3] at [q = 1], [r = 0], [size = 20]. *)
Lemma hex_to_pixel_example_refuted :
  HexGrid.hex_to_pixel 1 0 20 ≠ (30, 20 * sqrt 3)%R.
Proof.
  unfold HexGrid.hex_to_pixel. intros [= _ Hy].
  pose proof sqrt3_pos. lra.
Qed.

(** *** The visual view *)

Lemma append_cons (c : ascii) (s1 s2 : string) :
  String c s1 +:+ s2 = String c (s1 +:+ s2).
Proof. done. Qed.

Lemma append_nil_r (s : string) : s +:+ "" = s.
Proof. induction s as [|c s IH]; [done|]. by rewrite append_cons, IH. Qed.

Lemma append_assoc (s1 s2 s3 : string) : (s1 +:+ s2) +:+ s3 = s1 +:+ s2 +:+ s3.
Proof. induction s1 as [|c s1 IH]; [done|]. by rewrite !append_cons, IH. Qed.

Lemma print_no_end (s out : string) : Py.print s "" out = out +:+ s.
Proof. unfold Py.print. by rewrite append_nil_r. Qed.

Lemma repeat_str_space (n : nat) : Py.repeat_str " " n = indentation n.
Proof.
  unfold indentation. induction n as [|n IH]; [done|].
  cbn. by rewrite <- IH.
Qed.

Lemma length_indentation (n : nat) : String.length (indentation n) = n.
Proof.
  unfold indentation. induction n as [|n IH]; [done|].
  cbn. by rewrite IH.
Qed.

Lemma foldl_visual_cell (grid : HexGrid.Grid) (r : Z) (qs : list Z) (out : string) :
  foldl (HexGrid.visual_cell grid r) out qs
  = out +:+ concat_str ((λ q, marker grid q r) <$> qs).
Proof.
  revert out. induction qs as [|q qs IH]; intros out.
  - cbn. by rewrite append_nil_r.
  - cbn [foldl fmap list_fmap concat_str foldr]. rewrite IH.
    fold (concat_str ((λ q, marker grid q r) <$> qs)).
    rewrite <- append_assoc. f_equal.
    unfold HexGrid.visual_cell, marker.
    by destruct (bool_decide _); rewrite print_no_end.
Qed.

Lemma visual_row_text_1 (self : HexGrid.t) (out : string) (r : Z) :
  HexGrid.visual_row self out r = out +:+ visual_row_text 1 self r.
Proof.
  unfold HexGrid.visual_row, visual_row_text.
  rewrite foldl_visual_cell, print_no_end.
  unfold Py.print, Py.str_mul. rewrite repeat_str_space, Z.mul_1_l.
  cbn [String.append]. by rewrite !append_assoc.
Qed.

(** C7, as amended. [visual_grid] prints, for each [r] from [-radius] to
    [radius] in increasing order, [radius - r] single space characters,
    then for each [q] of the row the two characters "o " when [(q, r)] is
    a key of the grid and two spaces otherwise, then a newline. *)
Theorem visual_grid_rows (self : HexGrid.t) (out : string) :
  HexGrid.visual_grid self out = out +:+ visual_grid_text 1 self
  ∧ (∀ r, - HexGrid.radius self ≤ r ≤ HexGrid.radius self →
       Z.of_nat (String.length
                   (indentation (Z.to_nat (1 * (HexGrid.radius self - r)))))
       = HexGrid.radius self - r)
  ∧ (∀ q r, marker (HexGrid.grid self) q r = "o "
            ↔ is_Some (HexGrid.get_tile self q r))
  ∧ (∀ q r, marker (HexGrid.grid self) q r = "  "
            ↔ HexGrid.get_tile self q r = None).
Proof.
  split_and!.
  - unfold HexGrid.visual_grid, visual_grid_text.
    generalize (Py.range (- HexGrid.radius self) (HexGrid.radius self + 1)).
    intros rs. revert out. induction rs as [|r rs IH]; intros out.
    + cbn. by rewrite append_nil_r.
    + cbn [foldl fmap list_fmap concat_str foldr].
      rewrite IH, visual_row_text_1. apply append_assoc.
  - intros r Hr. rewrite length_indentation. lia.
  - intros q r. unfold marker, HexGrid.get_tile. case_bool_decide; naive_solver.
  - intros q r. unfold marker, HexGrid.get_tile. rewrite eq_None_not_Some.
    case_bool_decide; naive_solver.
Qed.

Example visual_grid_radius_1 :
  HexGrid.visual_grid grid1 ""
  = "  o o " +:+ Py.newline +:+ " o o o " +:+ Py.newline +:+ "o o " +:+ Py.newline.
Proof. vm_compute. reflexivity. Qed.

(** C7, as the specification words it: with an indentation of
    [radius - r] pairs of spaces the text differs from what is printed,
    already for the grid of radius 1. *)
Lemma visual_grid_space_pairs_refuted :
  HexGrid.visual_grid grid1 "" ≠ "" +:+ visual_grid_text 2 grid1.
Proof. vm_compute. discriminate. Qed.

(** ** The theorems at concrete inputs *)

Lemma generate_grid_hexagon_witness :
  0 ≤ 3 ∧ Z.of_nat (size (fst (HexGrid.generate_grid uniform0 choice0 3 tt))) = 37.
Proof.
  assert (0 ≤ 3) as H by lia. split; [exact H|].
  exact (proj1 (generate_grid_hexagon uniform0 choice0 3 tt H)).
Defined.

Lemma simulate_elevation_witness :
  HexGrid.grid (HexGrid.simulate_tectonics transform0 grid0) !! (0, 0)
  = Some (HexTile.set_elevation (HexGrid.simulated_elevation transform0 0 0) tile00)
  ∧ (0 <= HexGrid.simulated_elevation transform0 0 0)%R.
Proof.
  assert (HexGrid.grid (HexGrid.simulate_tectonics transform0 grid0) !! (0, 0)
          = Some (HexTile.set_elevation
                    (HexGrid.simulated_elevation transform0 0 0) tile00)) as H
    by (vm_compute; reflexivity).
  split; [exact H|].
  exact (proj1 (proj2 (simulate_elevation transform0 grid0 0 0 _ H))).
Defined.

Lemma simulate_origin_witness :
  0 ≤ 3 ∧ transform0 0%R 0%R = (0%R, 0%R)
  ∧ ∃ tile,
      HexGrid.get_tile
        (HexGrid.simulate_tectonics transform0
           (fst (HexGrid.init uniform0 choice0 3 tt))) 0 0 = Some tile
      ∧ HexTile.elevation tile = 1000%R.
Proof.
  assert (0 ≤ 3) as H by lia.
  assert (transform0 0%R 0%R = (0%R, 0%R)) as H0 by reflexivity.
  split_and!; [exact H|exact H0|].
  exact (simulate_origin uniform0 choice0 transform0 3 tt H H0).
Defined.

Lemma get_tile_total_witness :
  ¬ in_hexagon 1 5 0 ∧ in_hexagon 1 1 (-1)
  ∧ HexGrid.get_tile grid1 5 0 = None
  ∧ is_Some (HexGrid.get_tile grid1 1 (-1)).
Proof.
  assert (¬ in_hexagon 1 5 0) as Hout by (unfold in_hexagon; lia).
  assert (in_hexagon 1 1 (-1)) as Hin by (unfold in_hexagon; lia).
  split_and!; [exact Hout|exact Hin| |].
  - exact (proj1 (proj2 (proj2 (get_tile_total uniform0 choice0 grid1 1 tt 5 0))) Hout).
  - exact (proj2 (proj2 (proj2 (get_tile_total uniform0 choice0 grid1 1 tt 1 (-1)))) Hin).
Defined.

Lemma color_thresholds_witness :
  (900 > 800)%R ∧ HexGrid.get_color_by_elevation 900 = "#8B0000".
Proof.
  assert (900 > 800)%R as H by lra. split; [exact H|].
  exact (proj1 (color_thresholds 900) H).
Defined.

Lemma visual_grid_rows_witness :
  - HexGrid.radius grid1 ≤ 0 ≤ HexGrid.radius grid1
  ∧ HexGrid.visual_grid grid1 "" = "" +:+ visual_grid_text 1 grid1
  ∧ Z.of_nat (String.length
                (indentation (Z.to_nat (1 * (HexGrid.radius grid1 - 0)))))
    = HexGrid.radius grid1 - 0.
Proof.
  assert (- HexGrid.radius grid1 ≤ 0 ≤ HexGrid.radius grid1) as H
    by (vm_compute; split; discriminate).
  split; [exact H|]. split.
  - exact (proj1 (visual_grid_rows grid1 "")).
  - exact (proj1 (proj2 (visual_grid_rows grid1 "")) 0 H).
Defined.

Lemma simulate_frame_witness :
  HexGrid.grid grid0 !! (0, 0) = Some tile00
  ∧ ∃ new,
      HexGrid.grid (HexGrid.simulate_tectonics transform0 grid0) !! (0, 0) = Some new
      ∧ HexTile.q new = HexTile.q tile00
      ∧ HexTile.r new = HexTile.r tile00
      ∧ HexTile.s new = HexTile.s tile00
      ∧ HexTile.temperature new = HexTile.temperature tile00
      ∧ HexTile.natural_resources new = HexTile.natural_resources tile00
      ∧ HexTile.agriculture new = HexTile.agriculture tile00.
Proof.
  assert (HexGrid.grid grid0 !! (0, 0) = Some tile00) as H
    by (vm_compute; reflexivity).
  split; [exact H|].
  exact (proj2 (proj2 (simulate_frame transform0 grid0)) (0, 0) tile00 H).
Defined.

Lemma generate_grid_negative_witness :
  -2 < 0
  ∧ HexGrid.generate_grid uniform0 choice0 (-2) tt = (∅, tt)
  ∧ HexGrid.get_tile (fst (HexGrid.init uniform0 choice0 (-2) tt)) 0 0 = None.
Proof.
  assert (-2 < 0) as H by lia. split_and!; [exact H| |].
  - exact (proj1 (generate_grid_negative uniform0 choice0 (-2) tt H)).
  - exact (proj2 (proj2 (generate_grid_negative uniform0 choice0 (-2) tt H)) 0 0).
Defined.

(** ** Further properties of the rendering geometry *)

Lemma range_0_6 : Py.range 0 6 = [0; 1; 2; 3; 4; 5].
Proof. reflexivity. Qed.

(** The cosine and sine of the six angles [2 * pi / 6 * i]. *)
Lemma hex_angles :
  (cos (2 * PI / 6 * 0) = 1 ∧ sin (2 * PI / 6 * 0) = 0)%R
  ∧ (cos (2 * PI / 6 * 1) = 1 / 2 ∧ sin (2 * PI / 6 * 1) = sqrt 3 / 2)%R
  ∧ (cos (2 * PI / 6 * 2) = - (1 / 2) ∧ sin (2 * PI / 6 * 2) = sqrt 3 / 2)%R
  ∧ (cos (2 * PI / 6 * 3) = - 1 ∧ sin (2 * PI / 6 * 3) = 0)%R
  ∧ (cos (2 * PI / 6 * 4) = - (1 / 2) ∧ sin (2 * PI / 6 * 4) = - (sqrt 3 / 2))%R
  ∧ (cos (2 * PI / 6 * 5) = 1 / 2 ∧ sin (2 * PI / 6 * 5) = - (sqrt 3 / 2))%R.
Proof.
  replace (2 * PI / 6 * 0)%R with 0%R by lra.
  replace (2 * PI / 6 * 1)%R with (PI / 3)%R by lra.
  replace (2 * PI / 6 * 2)%R with (2 * (PI / 3))%R by lra.
  replace (2 * PI / 6 * 3)%R with PI by lra.
  replace (2 * PI / 6 * 4)%R with (PI / 3 + PI)%R by lra.
  replace (2 * PI / 6 * 5)%R with (2 * (PI / 3) + PI)%R by lra.
  rewrite !neg_cos, !neg_sin, cos_0, sin_0, cos_PI3, sin_PI3, cos_2PI3, sin_2PI3,
    cos_PI, sin_PI.
  repeat split; lra.
Qed.

Lemma hex_points_list (x y size : R) :
  HexGrid.calculate_hex_points x y size = flat_top_corners x y size.
Proof.
  unfold HexGrid.calculate_hex_points, flat_top_corners. rewrite range_0_6.
  cbn [foldl HexGrid.hex_point app].
  destruct hex_angles as ((c0 & s0) & (c1 & s1) & (c2 & s2) & (c3 & s3)
                          & (c4 & s4) & (c5 & s5)).
  rewrite c0, s0, c1, s1, c2, s2, c3, s3, c4, s4, c5, s5.
  repeat f_equal; lra.
Qed.

Lemma sqrt3_sqrt3 : (sqrt 3 * sqrt 3 = 3)%R.
Proof. apply sqrt_sqrt. lra. Qed.



Lemma hex_to_pixel_inj (q1 r1 q2 r2 : Z) (size : R) :
  size ≠ 0%R →
  HexGrid.hex_to_pixel q1 r1 size = HexGrid.hex_to_pixel q2 r2 size →
  q1 = q2 ∧ r1 = r2.
Proof.
  intros Hsize. unfold HexGrid.hex_to_pixel. intros [= Hx Hy].
  pose proof sqrt3_pos as H3.
  apply Rmult_eq_reg_l in Hx, Hy; [|done..].
  assert (IZR q1 = IZR q2) as Hq by lra.
  apply Rmult_eq_reg_l in Hy; [|lra].
  assert (IZR r1 = IZR r2) as Hr by lra.
  split; by apply eq_IZR.
Qed.




(** ** Further properties of grid generation *)

Lemma in_hexagon_bounds (radius q r : Z) :
  in_hexagon radius q r
  ↔ - radius ≤ q ≤ radius ∧ - radius ≤ r ≤ radius ∧ - radius ≤ q + r ≤ radius.
Proof. unfold in_hexagon. lia. Qed.

Section GenerateMore.
Context {Rng : Type}.
Variable uniform : R → R → Rng → R * Rng.
Variable choice : list string → Rng → string * Rng.

Local Abbreviation cell := (λ st k, HexGrid.generate_cell uniform choice (fst k) st (snd k)).

(** A property of every freshly constructed tile holds of every tile of
    the generated grid. *)
Lemma generate_grid_tiles (P : HexTile.t → Prop) (radius : Z) (rng : Rng) :
  (∀ q r rng', P (fst (HexTile.init uniform choice q r rng'))) →
  map_Forall (λ _ tile, P tile)
             (fst (HexGrid.generate_grid uniform choice radius rng)).
Proof.
  intros Hinit. rewrite generate_grid_keys.
  assert (∀ keys st, map_Forall (λ _ tile, P tile) (fst st) →
            map_Forall (λ _ tile, P tile) (fst (foldl cell st keys))) as Hfold.
  { induction keys as [|[q r] keys IH]; intros st Hst; [done|].
    cbn [foldl]. apply IH. cbn [fst snd].
    rewrite generate_cell_grid. by apply map_Forall_insert_2. }
  apply Hfold. cbn [fst]. apply map_Forall_empty.
Qed.

(** X1. When [random.uniform(a, b)] answers within [[a, b]] and
    [random.choice] answers an element of its list, every tile of a
    generated grid has an elevation in [[0, 100]], a temperature in
    [[-30, 50]], one of the five resources and one of the four
    agriculture levels. *)
Theorem generated_tile_attributes (radius : Z) (rng : Rng) (q r : Z)
    (tile : HexTile.t) :
  (∀ a b rng', (a <= b)%R → (a <= fst (uniform a b rng') <= b)%R) →
  (∀ l rng', l ≠ [] → fst (choice l rng') ∈ l) →
  fst (HexGrid.generate_grid uniform choice radius rng) !! (q, r) = Some tile →
  (0 <= HexTile.elevation tile <= 100)%R
  ∧ (-30 <= HexTile.temperature tile <= 50)%R
  ∧ HexTile.natural_resources tile ∈ ["None"; "Iron"; "Gold"; "Coal"; "Oil"]%string
  ∧ HexTile.agriculture tile ∈ ["None"; "Low"; "Medium"; "High"]%string.
Proof.
  intros Huniform Hchoice Htile.
  refine (generate_grid_tiles (λ tile, _ ∧ _ ∧ _ ∧ _) radius rng _ (q, r) tile Htile).
  intros q' r' rng0. unfold HexTile.init.
  pose proof (Huniform 0%R 100%R rng0) as He.
  destruct (uniform 0%R 100%R rng0) as [e rng1].
  pose proof (Huniform (-30)%R 50%R rng1) as Ht.
  destruct (uniform (-30)%R 50%R rng1) as [t rng2].
  pose proof (Hchoice ["None"; "Iron"; "Gold"; "Coal"; "Oil"]%string rng2) as Hn.
  destruct (choice _ rng2) as [n rng3].
  pose proof (Hchoice ["None"; "Low"; "Medium"; "High"]%string rng3) as Ha.
  destruct (choice _ rng3) as [a rng4].
  cbn [fst HexTile.elevation HexTile.temperature HexTile.natural_resources
       HexTile.agriculture] in *.
  split_and!; [apply He; lra|apply He; lra|apply Ht; lra|apply Ht; lra
              |by apply Hn|by apply Ha].
Qed.

(** X3. A larger radius keeps every key of a smaller one, and going from
    radius [R >= 0] to [R + 1] adds exactly the [6 (R + 1)] tiles of the
    next ring. *)
Theorem generate_grid_grows (radius radius' : Z) (rng rng' : Rng) :
  (radius ≤ radius' →
   dom (fst (HexGrid.generate_grid uniform choice radius rng))
   ⊆ dom (fst (HexGrid.generate_grid uniform choice radius' rng')))
  ∧ (0 ≤ radius →
     Z.of_nat (size (fst (HexGrid.generate_grid uniform choice (radius + 1) rng')))
     = Z.of_nat (size (fst (HexGrid.generate_grid uniform choice radius rng)))
       + 6 * (radius + 1)).
Proof.
  split.
  - intros Hle [q r]. rewrite !elem_of_dom, !lookup_generate_grid.
    unfold in_hexagon. lia.
  - intros Hr. rewrite !size_generate_grid, !length_generated_keys by lia.
    unfold tile_count. lia.
Qed.

(** X4. The set of keys of a generated grid is invariant under the
    rotation by a sixth of a turn [(q, r) -> (-r, q + r)] and under the
    reflection [(q, r) -> (r, q)], hence under the point reflection
    [(q, r) -> (-q, -r)]. *)
Theorem generate_grid_symmetric (radius : Z) (rng : Rng) (q r : Z) :
  let present q r :=
    is_Some (fst (HexGrid.generate_grid uniform choice radius rng) !! (q, r)) in
  (present q r ↔ present (- r) (q + r))
  ∧ (present q r ↔ present r q)
  ∧ (present q r ↔ present (- q) (- r)).
Proof.
  cbv zeta. rewrite !lookup_generate_grid, !in_hexagon_bounds. lia.
Qed.

End GenerateMore.

(** ** Further properties of the simulation *)

Section SimulateMore.
Variable transform : R → R → R * R.

Lemma planar_distance_pos (q r : Z) : (0 <= planar_distance transform q r)%R.
Proof. unfold planar_distance. destruct (transform _ _). apply sqrt_pos. Qed.

Lemma simulated_elevation_distance (q r : Z) :
  HexGrid.simulated_elevation transform q r
  = Rmax 0 (1000 - planar_distance transform q r / 10).
Proof.
  rewrite simulated_elevation_formula. unfold planar_distance.
  by destruct (transform _ _).
Qed.

Lemma elevation_simulate_tectonics (self : HexGrid.t) (q r : Z) (tile : HexTile.t) :
  HexGrid.grid (HexGrid.simulate_tectonics transform self) !! (q, r) = Some tile →
  HexTile.elevation tile = Rmax 0 (1000 - planar_distance transform q r / 10).
Proof.
  rewrite lookup_simulate_tectonics. intros Hk.
  apply fmap_Some in Hk as (old & _ & ->).
  cbn [HexTile.set_elevation HexTile.elevation fst snd].
  apply simulated_elevation_distance.
Qed.



(** X7. The result of [simulate_tectonics] does not depend on the
    elevations stored before: two grids of the same radius whose tiles
    agree on everything but the elevation are simulated to the same grid. *)
Theorem simulate_forgets_elevation (self1 self2 : HexGrid.t) :
  HexGrid.radius self1 = HexGrid.radius self2 →
  HexTile.set_elevation 0 <$> HexGrid.grid self1
  = HexTile.set_elevation 0 <$> HexGrid.grid self2 →
  HexGrid.simulate_tectonics transform self1
  = HexGrid.simulate_tectonics transform self2.
Proof.
  intros Hradius Hgrid.
  assert (HexGrid.grid (HexGrid.simulate_tectonics transform self1)
          = HexGrid.grid (HexGrid.simulate_tectonics transform self2)) as Heq.
  { apply map_eq. intros k. rewrite !lookup_simulate_tectonics.
    apply (f_equal (λ m : HexGrid.Grid, m !! k)) in Hgrid.
    rewrite !lookup_fmap in Hgrid.
    destruct (HexGrid.grid self1 !! k) as [[]|], (HexGrid.grid self2 !! k) as [[]|];
      cbn [fmap option_fmap option_map] in Hgrid |- *;
      unfold HexTile.set_elevation in Hgrid |- *;
      cbn [HexTile.q HexTile.r HexTile.s HexTile.temperature
           HexTile.natural_resources HexTile.agriculture] in Hgrid |- *;
      congruence. }
  unfold HexGrid.simulate_tectonics in *. cbn [HexGrid.grid] in Heq.
  by rewrite Hradius, Heq.
Qed.


End SimulateMore.

Section SimulateGenerated.
Context {Rng : Type}.
Variable uniform : R → R → Rng → R * Rng.
Variable choice : list string → Rng → string * Rng.
Variable transform : R → R → R * R.

Lemma dom_simulate_tectonics (self : HexGrid.t) :
  dom (HexGrid.grid (HexGrid.simulate_tectonics transform self))
  = dom (HexGrid.grid self).
Proof.
  apply set_eq. intros k. rewrite !elem_of_dom, lookup_simulate_tectonics.
  apply fmap_is_Some.
Qed.

Lemma size_simulate_tectonics (self : HexGrid.t) :
  size (HexGrid.grid (HexGrid.simulate_tectonics transform self))
  = size (HexGrid.grid self).
Proof. by rewrite <- !size_dom, dom_simulate_tectonics. Qed.

Lemma well_keyed_simulate_tectonics (self : HexGrid.t) :
  well_keyed (HexGrid.grid self) →
  well_keyed (HexGrid.grid (HexGrid.simulate_tectonics transform self)).
Proof.
  intros Hwk q r tile. rewrite lookup_simulate_tectonics. intros Hk.
  apply fmap_Some in Hk as (old & Hold & ->).
  cbn [HexTile.set_elevation HexTile.q HexTile.r HexTile.s].
  by apply Hwk.
Qed.

(** X9. Simulating a freshly generated grid keeps what generation
    established: the radius, the hexagonal set of keys answered by
    [get_tile], the number of tiles, and the coordinates of every tile. *)
Theorem simulate_generated_grid (radius : Z) (rng : Rng) :
  let self :=
    HexGrid.simulate_tectonics transform
      (fst (HexGrid.init uniform choice radius rng)) in
  HexGrid.radius self = radius
  ∧ (∀ q r, is_Some (HexGrid.get_tile self q r) ↔ in_hexagon radius q r)
  ∧ (0 ≤ radius → Z.of_nat (size (HexGrid.grid self)) = tile_count radius)
  ∧ (∀ q r tile, HexGrid.get_tile self q r = Some tile →
       HexTile.q tile = q ∧ HexTile.r tile = r ∧ HexTile.s tile = - q - r).
Proof.
  cbv zeta. split_and!.
  - cbn [HexGrid.simulate_tectonics HexGrid.radius]. apply radius_init.
  - intros q r. unfold HexGrid.get_tile.
    rewrite <- elem_of_dom, dom_simulate_tectonics, elem_of_dom, grid_init.
    apply lookup_generate_grid.
  - intros Hr. rewrite size_simulate_tectonics, grid_init, size_generate_grid.
    by apply length_generated_keys.
  - unfold HexGrid.get_tile. apply well_keyed_simulate_tectonics.
    rewrite grid_init. apply well_keyed_generate_grid.
Qed.

End SimulateGenerated.

(** ** Properties of the exported drawing *)

Lemma export_item_polygon (hex_size : R) (dwg : Svg.drawing)
    (item : (Z * Z) * HexTile.t) :
  HexGrid.export_item hex_size dwg item = dwg ++ [tile_polygon hex_size item].
Proof.
  destruct item as [[q r] tile]. unfold HexGrid.export_item, tile_polygon.
  cbn [fst snd]. destruct (HexGrid.hex_to_pixel q r hex_size) as [x y].
  by rewrite hex_points_list.
Qed.

Lemma foldl_export_item (hex_size : R) (items : list ((Z * Z) * HexTile.t))
    (dwg : Svg.drawing) :
  foldl (HexGrid.export_item hex_size) dwg items
  = dwg ++ (tile_polygon hex_size <$> items).
Proof.
  revert dwg. induction items as [|item items IH]; intros dwg.
  - cbn. by rewrite app_nil_r.
  - cbn [foldl]. rewrite IH, export_item_polygon, fmap_cons.
    by rewrite <- app_assoc.
Qed.

Lemma export_to_svg_map (self : HexGrid.t) :
  HexGrid.export_to_svg self
  = tile_polygon 20 <$> map_to_list (HexGrid.grid self).
Proof. unfold HexGrid.export_to_svg. by rewrite foldl_export_item. Qed.




(** ** Further properties of the visual view *)

Lemma visual_grid_text_1 (self : HexGrid.t) (out : string) :
  HexGrid.visual_grid self out = out +:+ visual_grid_text 1 self.
Proof.
  unfold HexGrid.visual_grid, visual_grid_text.
  generalize (Py.range (- HexGrid.radius self) (HexGrid.radius self + 1)).
  intros rs. revert out. induction rs as [|r rs IH]; intros out.
  - cbn. by rewrite append_nil_r.
  - cbn [foldl fmap list_fmap concat_str foldr].
    rewrite IH, visual_row_text_1. apply append_assoc.
Qed.

Lemma concat_markers_full (grid : HexGrid.Grid) (r : Z) (qs : list Z) :
  Forall (λ q, is_Some (grid !! (q, r))) qs →
  concat_str ((λ q, marker grid q r) <$> qs) = Py.repeat_str "o " (length qs).
Proof.
  induction 1 as [|q qs Hq _ IH]; [done|].
  cbn [fmap list_fmap concat_str foldr length Py.repeat_str].
  fold (concat_str ((λ q, marker grid q r) <$> qs)). rewrite IH.
  unfold marker. by rewrite bool_decide_eq_true_2.
Qed.

Section VisualGenerated.
Context {Rng : Type}.
Variable uniform : R → R → Rng → R * Rng.
Variable choice : list string → Rng → string * Rng.

(** X18. For a generated grid the visual view never prints a blank cell:
    the row of [r] is [radius - r] spaces followed by [2 radius + 1 - |r|]
    copies of the marker and a newline, for [r] from [-radius] up to
    [radius]; and whatever the grid, a negative radius prints nothing. *)
Theorem visual_grid_generated (radius : Z) (rng : Rng) (out : string) :
  HexGrid.visual_grid (fst (HexGrid.init uniform choice radius rng)) out
  = out +:+ concat_str (full_row_text radius <$> Py.range (- radius) (radius + 1))
  ∧ ∀ self, HexGrid.radius self < 0 → HexGrid.visual_grid self out = out.
Proof.
  split.
  - rewrite visual_grid_text_1. f_equal. unfold visual_grid_text.
    rewrite radius_init. f_equal. apply Forall_fmap_ext_1, Forall_forall.
    intros r Hr. apply elem_of_range in Hr.
    unfold visual_row_text, full_row_text. rewrite radius_init, grid_init.
    rewrite Z.mul_1_l. do 2 f_equal.
    rewrite concat_markers_full.
    + f_equal. apply Nat2Z.inj. rewrite length_range. lia.
    + apply Forall_forall. intros q Hq. apply elem_of_range in Hq.
      apply lookup_generate_grid, in_hexagon_bounds. lia.
  - intros self Hneg. unfold HexGrid.visual_grid. by rewrite range_nil by lia.
Qed.

End VisualGenerated.

(** ** The consumption of random values *)

Section GenerateDraws.
Context {Rng : Type}.
Variable uniform : R → R → Rng → R * Rng.
Variable choice : list string → Rng → string * Rng.
Variable calls : Rng → nat.

Local Abbreviation cell := (λ st k, HexGrid.generate_cell uniform choice (fst k) st (snd k)).

(** X2. When every call of [random.uniform] and of [random.choice] is one
    step of the generator, generating a grid of radius [R >= 0] takes
    exactly four steps per tile, [4 (3R^2 + 3R + 1)] in all. *)
Theorem generate_grid_draws (radius : Z) (rng : Rng) :
  (∀ a b rng', calls (snd (uniform a b rng')) = S (calls rng')) →
  (∀ l rng', calls (snd (choice l rng')) = S (calls rng')) →
  0 ≤ radius →
  Z.of_nat (calls (snd (HexGrid.generate_grid uniform choice radius rng)))
  = Z.of_nat (calls rng) + 4 * tile_count radius.
Proof.
  intros Hu Hc Hr.
  assert (∀ q r rng', calls (snd (HexTile.init uniform choice q r rng'))
                      = (4 + calls rng')%nat) as Hinit.
  { intros q r rng0. unfold HexTile.init.
    pose proof (Hu 0%R 100%R rng0) as H1.
    destruct (uniform 0%R 100%R rng0) as [e rng1].
    pose proof (Hu (-30)%R 50%R rng1) as H2.
    destruct (uniform (-30)%R 50%R rng1) as [t rng2].
    pose proof (Hc ["None"; "Iron"; "Gold"; "Coal"; "Oil"]%string rng2) as H3.
    destruct (choice _ rng2) as [n rng3].
    pose proof (Hc ["None"; "Low"; "Medium"; "High"]%string rng3) as H4.
    destruct (choice _ rng3) as [a rng4].
    cbn [snd] in *. lia. }
  assert (∀ keys st, calls (snd (foldl cell st keys))
                     = (calls (snd st) + 4 * length keys)%nat) as Hfold.
  { induction keys as [|[q r] keys IH]; intros st; cbn [foldl length]; [lia|].
    rewrite IH. cbn [fst snd]. unfold HexGrid.generate_cell.
    pose proof (Hinit q r (snd st)) as Hi.
    destruct (HexTile.init uniform choice q r (snd st)) as [tile rng'].
    cbn [snd] in *. lia. }
  rewrite generate_grid_keys, Hfold. cbn [snd].
  rewrite <- (length_generated_keys radius Hr). lia.
Qed.

End GenerateDraws.

(** ** The further properties at concrete inputs *)



Lemma generated_tile_attributes_witness :
  fst (HexGrid.generate_grid uniform0 choice0 0 tt) !! (0, 0) = Some tile00
  ∧ (0 <= HexTile.elevation tile00 <= 100)%R.
Proof.
  assert (∀ a b rng', (a <= b)%R → (a <= fst (uniform0 a b rng') <= b)%R) as Hu
    by (intros a b rng' Hab; cbn; lra).
  assert (∀ l rng', l ≠ [] → fst (choice0 l rng') ∈ l) as Hc
    by (intros [|x l] rng' Hl; [done|cbn; left]).
  assert (fst (HexGrid.generate_grid uniform0 choice0 0 tt) !! (0, 0) = Some tile00)
    as Ht by (vm_compute; reflexivity).
  split; [exact Ht|].
  exact (proj1 (generated_tile_attributes uniform0 choice0 0 tt 0 0 tile00 Hu Hc Ht)).
Defined.

Lemma generate_grid_grows_witness :
  1 ≤ 2 ∧ 0 ≤ 1
  ∧ dom (fst (HexGrid.generate_grid uniform0 choice0 1 tt))
    ⊆ dom (fst (HexGrid.generate_grid uniform0 choice0 2 tt))
  ∧ Z.of_nat (size (fst (HexGrid.generate_grid uniform0 choice0 (1 + 1) tt)))
    = Z.of_nat (size (fst (HexGrid.generate_grid uniform0 choice0 1 tt)))
      + 6 * (1 + 1).
Proof.
  assert (1 ≤ 2) as H12 by lia. assert (0 ≤ 1) as H01 by lia.
  split; [exact H12|]. split; [exact H01|]. split.
  - exact (proj1 (generate_grid_grows uniform0 choice0 1 2 tt tt) H12).
  - exact (proj2 (generate_grid_grows uniform0 choice0 1 2 tt tt) H01).
Defined.

Lemma generate_grid_symmetric_witness :
  is_Some (fst (HexGrid.generate_grid uniform0 choice0 1 tt) !! (1, -1))
  ∧ is_Some (fst (HexGrid.generate_grid uniform0 choice0 1 tt) !! (- -1, 1 + -1)).
Proof.
  assert (is_Some (fst (HexGrid.generate_grid uniform0 choice0 1 tt) !! (1, -1)))
    as H by (vm_compute; eexists; reflexivity).
  split; [exact H|].
  exact (proj1 (proj1 (generate_grid_symmetric uniform0 choice0 1 tt 1 (-1))) H).
Defined.

Lemma simulate_sample :
  HexGrid.grid (HexGrid.simulate_tectonics transform0 grid0) !! (0, 0)
  = Some tile00_simulated.
Proof. vm_compute. reflexivity. Qed.

Lemma planar_distance_sample : planar_distance transform0 0 0 = 0%R.
Proof.
  unfold planar_distance, transform0.
  replace (10 * 0 * (10 * 0) + 10 * 0 * (10 * 0))%R with 0%R by lra.
  apply sqrt_0.
Qed.



Lemma simulate_forgets_elevation_witness :
  HexGrid.simulate_tectonics transform0 grid0
  = HexGrid.simulate_tectonics transform0
      (HexGrid.simulate_tectonics transform0 grid0).
Proof.
  assert (HexGrid.radius grid0
          = HexGrid.radius (HexGrid.simulate_tectonics transform0 grid0)) as Hr
    by reflexivity.
  assert (HexTile.set_elevation 0 <$> HexGrid.grid grid0
          = HexTile.set_elevation 0
              <$> HexGrid.grid (HexGrid.simulate_tectonics transform0 grid0)) as Hg
    by (vm_compute; reflexivity).
  exact (simulate_forgets_elevation transform0 grid0 _ Hr Hg).
Defined.


Lemma simulate_generated_grid_witness :
  0 ≤ 3
  ∧ Z.of_nat (size (HexGrid.grid
        (HexGrid.simulate_tectonics transform0
           (fst (HexGrid.init uniform0 choice0 3 tt))))) = tile_count 3.
Proof.
  assert (0 ≤ 3) as H by lia. split; [exact H|].
  exact (proj1 (proj2 (proj2 (simulate_generated_grid uniform0 choice0 transform0 3 tt))) H).
Defined.


Lemma visual_grid_generated_witness :
  HexGrid.radius (HexGrid.mk (-1) ∅) < 0
  ∧ HexGrid.visual_grid (HexGrid.mk (-1) ∅) "" = "".
Proof.
  assert (HexGrid.radius (HexGrid.mk (-1) ∅) < 0) as H by (cbn; lia).
  split; [exact H|].
  exact (proj2 (visual_grid_generated uniform0 choice0 0 tt "") _ H).
Defined.

Lemma generate_grid_draws_witness :
  0 ≤ 1
  ∧ Z.of_nat (snd (HexGrid.generate_grid uniform_count choice_count 1 0%nat))
    = Z.of_nat 0 + 4 * tile_count 1.
Proof.
  assert (0 ≤ 1) as H by lia. split; [exact H|].
  exact (generate_grid_draws uniform_count choice_count (λ n, n) 1 0%nat
           (λ _ _ _, eq_refl) (λ _ _, eq_refl) H).
Defined.
